(** * The turn-analysis endpoint of [app/main.py]

    A shallow embedding of the two functions of [app/main.py] that carry
    logic, [prepare_data_for_json] and the [analyze_turn] request handler,
    and the properties of them that the specification states.

    Python values are a small inductive type; a [dict] with string keys is
    a [gmap string value]; the handler runs in a state-and-error monad whose
    state is the log of the calls made to the collaborators
    ([analyze_audio], [analyze_video], [check_trigger_words],
    [call_openai_therapy_model]), which live in other modules and are
    parameters here. *)

From Stdlib Require Import ZArith Lia.
From Stdlib Require Import Floats.PrimFloat.
From stdpp Require Import gmap strings list fin_maps.

Set Warnings "-register-all".
Open Scope string_scope.

(** ** Python values *)

(** The contents of a NumPy array: one item (a 0-dimensional array, or the
    end of the nesting) or a sequence of sub-arrays along the first axis. *)
Inductive nd (A : Type) : Type :=
| NdItem (a : A)
| NdAxis (rows : list (nd A)).
Arguments NdItem {A} a.
Arguments NdAxis {A} rows.

(** The values [prepare_data_for_json] tells apart: [dict], [list],
    [np.floating], [np.integer], [np.ndarray], and the scalars that reach
    its last line.  A [np.floating] carries the double that [float(data)]
    gives, a [np.integer] the integer that [int(data)] gives.  An array has
    a floating or integer dtype, or dtype [object], whose items are
    arbitrary Python objects. *)
Inductive value : Type :=
| VNone
| VBool (b : bool)
| VInt (n : Z)
| VFloat (x : float)
| VStr (s : string)
| VList (items : list value)
| VDict (d : gmap string value)
| VNpFloating (x : float)
| VNpInteger (n : Z)
| VNdarray (a : ndarray)
with ndarray : Type :=
| NdFloat (t : nd float)
| NdInt (t : nd Z)
| NdObject (t : nd value).

(** A dict display [{k1: v1, k2: v2, ...}]: the items are stored from left
    to right. *)
Definition dict_of (kvs : list (string * value)) : gmap string value :=
  foldl (fun m kv => <[kv.1 := kv.2]> m) ∅ kvs.

Definition dict_literal (kvs : list (string * value)) : value :=
  VDict (dict_of kvs).

(** ** [ndarray.tolist] *)

(** NumPy: "Return a copy of the array data as a (nested) Python list.
    Data items are converted to the nearest compatible builtin Python type,
    via the [item] function.  If [a.ndim] is 0 [...] it will not be a list
    at all, but a simple Python scalar."  [item] is the parameter here. *)
Fixpoint nd_tolist {A : Type} (item : A -> value) (t : nd A) : value :=
  match t with
  | NdItem a => item a
  | NdAxis rows => VList (map (nd_tolist item) rows)
  end.

(** Items of a floating array become [float], of an integer array [int];
    the items of an [object] array are Python objects already and come out
    as they are. *)
Definition tolist (a : ndarray) : value :=
  match a with
  | NdFloat t => nd_tolist VFloat t
  | NdInt t => nd_tolist VInt t
  | NdObject t => nd_tolist (fun o => o) t
  end.

(** ** [prepare_data_for_json] (main.py, lines 15-36) *)

Fixpoint prepare_data_for_json (data : value) : value :=
  match data with
  | VDict d => VDict (prepare_data_for_json <$> d)
  | VList items => VList (map prepare_data_for_json items)
  | VNpFloating x => VFloat x
  | VNpInteger n => VInt n
  | VNdarray a => tolist a
  | _ => data
  end.

(** ** Predicates on values *)

(** No NumPy value at any position of the nesting of dicts and lists. *)
Fixpoint plain (v : value) : bool :=
  match v with
  | VNpFloating _ | VNpInteger _ | VNdarray _ => false
  | VList items => forallb plain items
  | VDict d => map_fold (fun _ x acc => plain x && acc) true d
  | _ => true
  end.

(** No array of dtype [object] at any position of the nesting of dicts and
    lists. *)
Fixpoint numeric_arrays (v : value) : bool :=
  match v with
  | VNdarray (NdObject _) => false
  | VList items => forallb numeric_arrays items
  | VDict d => map_fold (fun _ x acc => numeric_arrays x && acc) true d
  | _ => true
  end.


(** The number of constructors met along dicts and lists; the measure for
    induction on values. *)
Fixpoint vsize (v : value) : nat :=
  match v with
  | VList items => S (foldr (fun x acc => vsize x + acc) 0 items)
  | VDict d => S (map_fold (fun _ x acc => vsize x + acc) 0 d)
  | _ => 1
  end.



(** ** Exceptions and results *)

Inductive exn : Type :=
| Exn (cls : string) (msg : string).

Inductive result (A : Type) : Type :=
| Ok (a : A)
| Raise (e : exn).
Arguments Ok {A} a.
Arguments Raise {A} e.

(** [obj.get(key, dflt)]: only a dict has the method. *)
Definition py_get (obj : value) (key : string) (dflt : value) : result value :=
  match obj with
  | VDict d => Ok (default dflt (d !! key))
  | _ => Raise (Exn "AttributeError" "get")
  end.

(** ** Calls to the collaborators, and the handler's monad *)

(** One call to a collaborator, with what it gave back. *)
Inductive event : Type :=
| AudioCall (video_file : value) (r : result value)
| VideoCall (video_file : value) (r : result value)
| TriggerCheck (transcript : value) (r : result (bool * value))
| ModelCall (assembly deepface questionnaires past_turns : value) (r : result value).

Inductive callee : Type := Audio | Video | Trigger | Model.

#[global] Instance callee_eq_dec : EqDecision callee.
Proof. solve_decision. Defined.

Definition callee_of (ev : event) : callee :=
  match ev with
  | AudioCall _ _ => Audio
  | VideoCall _ _ => Video
  | TriggerCheck _ _ => Trigger
  | ModelCall _ _ _ _ _ => Model
  end.

(** The three external services (the trigger-word check is local code). *)
Definition is_service (ev : event) : bool :=
  match callee_of ev with Trigger => false | _ => true end.

Definition is_model_call (ev : event) : bool :=
  match ev with ModelCall _ _ _ _ _ => true | _ => false end.

Definition raised_by (ev : event) : option exn :=
  match ev with
  | AudioCall _ (Raise e) | VideoCall _ (Raise e)
  | TriggerCheck _ (Raise e) | ModelCall _ _ _ _ (Raise e) => Some e
  | _ => None
  end.

(** A computation reads and extends the log of calls and returns a value or
    raises. *)
Definition M (A : Type) : Type := list event -> result A * list event.

Definition ret {A : Type} (a : A) : M A := fun log => (Ok a, log).

Definition bind {A B : Type} (c : M A) (k : A -> M B) : M B :=
  fun log =>
    match c log with
    | (Ok a, log') => k a log'
    | (Raise e, log') => (Raise e, log')
    end.

Definition lift {A : Type} (r : result A) : M A := fun log => (r, log).

(** Calling a collaborator appends the call and its result to the log. *)
Definition call {A : Type} (r : result A) (ev : result A -> event) : M A :=
  fun log => (r, (log ++ [ev r])%list).

Notation "x <- c ;; k" := (bind c (fun x => k))
  (at level 100, c at next level, right associativity).

(** ** The HTTP response *)

(** [return jsonify(payload), status].  Serialisation belongs to the web
    framework: the body is the payload handed to [jsonify]. *)
Record response : Type := Response { body : value; status : Z }.

Definition jsonify (payload : value) : value := payload.

Definition field (r : response) (k : string) : option value :=
  match body r with
  | VDict d => d !! k
  | _ => None
  end.

(** The two shapes of a 200 response (main.py, lines 75-84 and 92-100). *)
Definition emergency_shape (r : response) : bool :=
  (status r =? 200)%Z &&
  match field r "emergency", field r "triggered_word" with
  | Some (VBool true), Some _ => true
  | _, _ => false
  end.

Definition normal_shape (r : response) : bool :=
  (status r =? 200)%Z &&
  match field r "emergency", field r "triggered_word" with
  | Some (VBool false), None => true
  | _, _ => false
  end.

Definition distress_reply : string :=
  "It sounds like you might be in distress. Please reach out to immediate help or call a trusted person right now. You're not alone.".

(** ** The request handler [analyze_turn] (main.py, lines 43-102) *)

Section Handler.

(** The truth value of a NumPy array ([ndarray.__bool__]) is NumPy's
    business (an error for an array of several items, changing between
    versions for an empty one); it is a parameter. *)
Variable ndarray_bool : ndarray -> result bool.

(** The collaborators, imported from [app.services] and [app.utils].
    Within one request each is called at most once, so a function from
    the arguments to what the call gives back, a value or an exception,
    covers every run. *)
Variable analyze_audio : value -> result value.
Variable analyze_video : value -> result value.
Variable check_trigger_words : value -> result (bool * value).
Variable call_openai_therapy_model :
  value -> value -> value -> value -> result value.

(** The truth value that [not x] and [if x] test. *)
Definition py_bool (v : value) : result bool :=
  match v with
  | VNone => Ok false
  | VBool b => Ok b
  | VInt n | VNpInteger n => Ok (negb (n =? 0)%Z)
  | VFloat x | VNpFloating x => Ok (negb (x =? 0)%float)
  | VStr s => Ok (match s with EmptyString => false | _ => true end)
  | VList items => Ok (match items with [] => false | _ => true end)
  | VDict d => Ok (negb (Nat.eqb (size d) 0))
  | VNdarray a => ndarray_bool a
  end.

(** Lines 58 and 69. *)
Definition error_response (msg : string) : response :=
  Response (jsonify (dict_literal [("error", VStr msg)])) 400.

(** Lines 75-84. *)
Definition emergency_response (assembly_data deepface_data word : value) : value :=
  dict_literal
    [ ("assemblyAI_output", assembly_data);
      ("deepface_output", deepface_data);
      ("bot_reply", VStr distress_reply);
      ("diagnostic_match", VBool false);
      ("conversation_type", VStr "emergency");
      ("diagnostic_mapping", VList []);
      ("emergency", VBool true);
      ("triggered_word", word) ].

(** Lines 92-100, with the values of the four expressions over
    [model_output] already computed. *)
Definition response_payload
    (assembly_data deepface_data bot_reply : value) (diagnostic_match : bool)
    (conversation_type diagnostic_mapping : value) : value :=
  dict_literal
    [ ("assemblyAI_output", assembly_data);
      ("deepface_output", deepface_data);
      ("bot_reply", bot_reply);
      ("diagnostic_match", VBool diagnostic_match);
      ("conversation_type", conversation_type);
      ("diagnostic_mapping", diagnostic_mapping);
      ("emergency", VBool false) ].

(** Lines 65-102: from the transcript check to the response. *)
Definition respond
    (assembly_data deepface_data questionnaires past_turns : value) : M response :=
  transcript <- lift (py_get assembly_data "transcript" VNone) ;;
  has_transcript <- lift (py_bool transcript) ;;
  if negb has_transcript then ret (error_response "Missing transcript")
  else
    checked <- call (check_trigger_words transcript) (TriggerCheck transcript) ;;
    let '(found_trigger, word) := checked in
    if found_trigger : bool then
      ret (Response (jsonify (emergency_response assembly_data deepface_data word)) 200)
    else
      model_output <-
        call (call_openai_therapy_model assembly_data deepface_data questionnaires past_turns)
             (ModelCall assembly_data deepface_data questionnaires past_turns) ;;
      bot_reply <- lift (py_get model_output "bot_reply" VNone) ;;
      mapping <- lift (py_get model_output "diagnostic_mapping" VNone) ;;
      has_mapping <- lift (py_bool mapping) ;;
      conversation_type <- lift (py_get model_output "conversation_type" (VStr "free_talk")) ;;
      diagnostic_mapping <- lift (py_get model_output "diagnostic_mapping" (VDict ∅)) ;;
      ret (Response
             (jsonify (response_payload assembly_data deepface_data bot_reply
                         has_mapping conversation_type diagnostic_mapping))
             200).

(** Lines 47-63, then [respond].  [data] is what [request.get_json()]
    returned. *)
Definition analyze_turn (data : value) : M response :=
  questionnaires <- lift (py_get data "questionnaires" (VDict ∅)) ;;
  past_turns <- lift (py_get data "past_turns" (VList [])) ;;
  video_file <- lift (py_get data "video_url" (VDict ∅)) ;;
  has_video <- lift (py_bool video_file) ;;
  if negb has_video then ret (error_response "Missing video url")
  else
    audio <- call (analyze_audio video_file) (AudioCall video_file) ;;
    let assembly_data := prepare_data_for_json audio in
    video <- call (analyze_video video_file) (VideoCall video_file) ;;
    let deepface_data := prepare_data_for_json video in
    respond assembly_data deepface_data questionnaires past_turns.

(** The handler of the specification's design note: the same steps with
    the video analysis before the audio analysis. *)
Definition analyze_turn_swapped (data : value) : M response :=
  questionnaires <- lift (py_get data "questionnaires" (VDict ∅)) ;;
  past_turns <- lift (py_get data "past_turns" (VList [])) ;;
  video_file <- lift (py_get data "video_url" (VDict ∅)) ;;
  has_video <- lift (py_bool video_file) ;;
  if negb has_video then ret (error_response "Missing video url")
  else
    video <- call (analyze_video video_file) (VideoCall video_file) ;;
    let deepface_data := prepare_data_for_json video in
    audio <- call (analyze_audio video_file) (AudioCall video_file) ;;
    let assembly_data := prepare_data_for_json audio in
    respond assembly_data deepface_data questionnaires past_turns.

End Handler.

(** ** A trigger-word checker to run the handler with *)

Fixpoint contains (phrase transcript : string) : bool :=
  String.prefix phrase transcript ||
  match transcript with
  | EmptyString => false
  | String _ rest => contains phrase rest
  end.

(** Modelled from the spec: [check_trigger_words] of
    [app/utils/safety_check.py], whose source is missing.  Section 4.2: the
    input is a transcript string, the output is (found, matched phrase or
    empty), by substring matching against a fixed list.  It serves as the
    checker of the sample runs only; the properties of the handler hold for
    every checker. *)
Definition check_trigger_words_spec (phrases : list string) (transcript : value)
  : result (bool * value) :=
  match transcript with
  | VStr s =>
      match filter (fun p => contains p s = true) phrases with
      | p :: _ => Ok (true, VStr p)
      | [] => Ok (false, VStr EmptyString)
      end
  | _ => Raise (Exn "TypeError" "transcript")
  end.

(** A NumPy that refuses the truth value of every array. *)
Definition ndarray_bool_error (a : ndarray) : result bool :=
  Raise (Exn "ValueError" "truth value of an array").

(** ** Sample data *)

(** [np.array([np.float64(1.5), None])]: a score and a missing one, which
    NumPy stores with dtype [object]. *)
Definition object_array : value :=
  VNdarray (NdObject (NdAxis [NdItem (VNpFloating 1.5); NdItem VNone])).

(** Requests: one with a media reference, and the one of the
    specification's first scenario. *)
Definition turn_request : gmap string value :=
  dict_of [("video_url", VStr "clip.mp4");
           ("questionnaires", VDict ∅);
           ("past_turns", VList [])].

Definition empty_url_request : gmap string value :=
  dict_of [("video_url", VStr EmptyString);
           ("questionnaires", VDict ∅);
           ("past_turns", VList [])].

(** Results of the audio analysis: a transcript with a distress phrase, a
    calm one, none at all, and an empty one; each with a NumPy confidence. *)
Definition audio_result (transcript : option string) : gmap string value :=
  match transcript with
  | Some s => dict_of [("transcript", VStr s); ("confidence", VNpFloating 0.5)]
  | None => dict_of [("confidence", VNpFloating 0.5)]
  end.

Definition audio_says (transcript : option string) (video_file : value) : result value :=
  Ok (VDict (audio_result transcript)).

(** A result of the video analysis, with NumPy scores. *)
Definition video_result : value :=
  dict_literal [("dominant_emotion", VStr "sad");
                ("emotion", dict_literal [("sad", VNpFloating 87.5);
                                          ("happy", VNpFloating 0.25)])].

Definition video_sees (video_file : value) : result value := Ok video_result.

(** The trigger phrases of the sample runs. *)
Definition trigger_phrases : list string := ["end it all"; "hurt myself"].

(** The model output of the specification's third scenario. *)
Definition model_output : gmap string value :=
  dict_of [("bot_reply", VStr "Glad to hear!"); ("diagnostic_mapping", VDict ∅)].

Definition model_replies (assembly deepface questionnaires past_turns : value)
  : result value := Ok (VDict model_output).

(** Collaborators that fail. *)
Definition service_down {A : Type} : result A := Raise (Exn "ConnectionError" "upstream").

(** * Properties *)

(** ** Induction on values *)

Lemma map_fold_andb (f : value -> bool) (d : gmap string value) :
  map_fold (fun _ x acc => f x && acc) true d = true <->
  map_Forall (fun _ x => f x = true) d.
Proof.
  induction d as [|k x d Hk IH] using map_ind.
  - rewrite map_fold_empty. split; [intros _; apply map_Forall_empty | done].
  - rewrite map_fold_insert_L; [| |done].
    + rewrite andb_true_iff, IH, map_Forall_insert by done. tauto.
    + intros. rewrite !andb_assoc. f_equal. apply andb_comm.
Qed.

Lemma vsize_lookup (d : gmap string value) (k : string) (x : value) :
  d !! k = Some x -> vsize x < vsize (VDict d).
Proof.
  intros Hk. cbn [vsize].
  rewrite (map_fold_delete_L _ _ k x d); [lia| |done].
  intros. lia.
Qed.

Lemma vsize_elem (items : list value) (x : value) :
  x ∈ items -> vsize x < vsize (VList items).
Proof.
  cbn [vsize]. induction 1 as [x l|x y l _ IH]; cbn [foldr]; lia.
Qed.

Lemma value_nested_ind (P : value -> Prop) :
  (forall v, (forall items, v <> VList items) -> (forall d, v <> VDict d) -> P v) ->
  (forall items, Forall P items -> P (VList items)) ->
  (forall d, map_Forall (fun _ x => P x) d -> P (VDict d)) ->
  forall v, P v.
Proof.
  intros Hleaf Hlist Hdict v.
  induction v as [v IH] using (induction_ltof1 _ vsize). unfold ltof in IH.
  destruct v; try (apply Hleaf; congruence).
  - apply Hlist, Forall_forall. intros x Hx. apply IH, vsize_elem, Hx.
  - apply Hdict. intros k x Hk. eapply IH, vsize_lookup, Hk.
Qed.

Lemma nd_nested_ind {A : Type} (P : nd A -> Prop) :
  (forall a, P (NdItem a)) ->
  (forall rows, Forall P rows -> P (NdAxis rows)) ->
  forall t, P t.
Proof.
  intros Hitem Haxis.
  fix go 1. intros [a|rows].
  - apply Hitem.
  - apply Haxis. induction rows as [|t rows IH]; constructor; [apply go | apply IH].
Qed.

(** ** What [tolist] and [prepare_data_for_json] give back *)

Lemma plain_list (items : list value) :
  plain (VList items) = true <-> Forall (fun x => plain x = true) items.
Proof. cbn [plain]. rewrite forallb_forall, Forall_forall. by setoid_rewrite list_elem_of_In. Qed.

Lemma plain_dict (d : gmap string value) :
  plain (VDict d) = true <-> map_Forall (fun _ x => plain x = true) d.
Proof. cbn [plain]. apply map_fold_andb. Qed.

Lemma numeric_arrays_list (items : list value) :
  numeric_arrays (VList items) = true <->
  Forall (fun x => numeric_arrays x = true) items.
Proof.
  cbn [numeric_arrays]. rewrite forallb_forall, Forall_forall.
  by setoid_rewrite list_elem_of_In.
Qed.

Lemma numeric_arrays_dict (d : gmap string value) :
  numeric_arrays (VDict d) = true <->
  map_Forall (fun _ x => numeric_arrays x = true) d.
Proof. cbn [numeric_arrays]. apply map_fold_andb. Qed.

(** The nested list of an array is free of NumPy values as soon as its
    items are. *)
Lemma nd_tolist_plain {A : Type} (item : A -> value) (t : nd A) :
  (forall a, plain (item a) = true) -> plain (nd_tolist item t) = true.
Proof.
  intros Hitem. induction t as [a|rows IH] using nd_nested_ind; cbn [nd_tolist].
  - apply Hitem.
  - apply plain_list, Forall_map. exact IH.
Qed.

Lemma tolist_plain (a : ndarray) :
  numeric_arrays (VNdarray a) = true -> plain (tolist a) = true.
Proof. destruct a; [intros _; by apply nd_tolist_plain ..|done]. Qed.

Lemma prepare_plain (v : value) :
  numeric_arrays v = true -> plain (prepare_data_for_json v) = true.
Proof.
  induction v as [v Hl Hd|items IH|d IH] using value_nested_ind; intros Hv.
  - destruct v; try done; [by destruct (Hl items) | by destruct (Hd d) | by apply tolist_plain].
  - cbn [prepare_data_for_json]. apply plain_list, Forall_map.
    apply numeric_arrays_list in Hv. rewrite Forall_forall in IH, Hv.
    apply Forall_forall. intros x Hx. by apply IH, Hv.
  - cbn [prepare_data_for_json]. apply plain_dict.
    apply numeric_arrays_dict in Hv.
    intros k y. rewrite lookup_fmap. intros (x & Hx & ->)%fmap_Some.
    by eapply IH, Hv.
Qed.

Lemma prepare_fixes_plain (v : value) :
  plain v = true -> prepare_data_for_json v = v.
Proof.
  induction v as [v Hl Hd|items IH|d IH] using value_nested_ind; intros Hv.
  - destruct v; try done; [by destruct (Hl items) | by destruct (Hd d)].
  - cbn [prepare_data_for_json]. f_equal.
    apply plain_list in Hv. rewrite <- (map_id items) at 2.
    rewrite Forall_forall in IH, Hv.
    apply map_ext_in. intros x Hx%list_elem_of_In. by apply IH, Hv.
  - cbn [prepare_data_for_json]. f_equal.
    apply plain_dict in Hv. apply map_eq. intros k. rewrite lookup_fmap.
    destruct (d !! k) as [x|] eqn:Hk; [cbn|done].
    f_equal. by eapply IH, Hv.
Qed.

(** On every structure whose arrays have a numeric dtype the function is
    idempotent and leaves no NumPy value. *)
Lemma prepare_idempotent_numeric (v : value) :
  numeric_arrays v = true ->
  prepare_data_for_json (prepare_data_for_json v) = prepare_data_for_json v /\
  plain (prepare_data_for_json v) = true.
Proof.
  intros Hv. split; [apply prepare_fixes_plain|]; by apply prepare_plain.
Qed.



(** C6: on an array of dtype [object] that holds a [np.floating] and
    [None], [prepare_data_for_json] returns the list of these same two
    objects: the NumPy value survives in the result, and a second
    application, which converts it, gives a result that differs from the
    first. *)
Theorem prepare_data_for_json_object_array :
  prepare_data_for_json object_array = VList [VNpFloating 1.5; VNone] /\
  plain (prepare_data_for_json object_array) = false /\
  prepare_data_for_json (prepare_data_for_json object_array)
    = VList [VFloat 1.5; VNone] /\
  prepare_data_for_json (prepare_data_for_json object_array)
    <> prepare_data_for_json object_array.
Proof. repeat split. discriminate. Qed.

(** ** The request handler *)

Section HandlerProperties.

Variable ndarray_bool : ndarray -> result bool.
Variable analyze_audio : value -> result value.
Variable analyze_video : value -> result value.
Variable check_trigger_words : value -> result (bool * value).
Variable call_openai_therapy_model :
  value -> value -> value -> value -> result value.

Local Abbreviation handler :=
  (analyze_turn ndarray_bool analyze_audio analyze_video
     check_trigger_words call_openai_therapy_model).
Local Abbreviation truth := (py_bool ndarray_bool).

(** Every falsy [video_url] ends the request at line 58, before any call. *)
Lemma falsy_video_url (d : gmap string value) :
  truth (default (VDict ∅) (d !! "video_url")) = Ok false ->
  handler (VDict d) [] = (Ok (error_response "Missing video url"), []).
Proof.
  intros Hv. unfold analyze_turn, bind, lift, ret. cbn [py_get]. by rewrite Hv.
Qed.

(** C3: a request whose [video_url] is absent, [None] or the empty string
    gets status 400 with body [{"error": "Missing video url"}], and the
    log of calls stays empty: none of the collaborators is invoked. *)
Theorem missing_video_url (d : gmap string value) :
  d !! "video_url" = None \/
  d !! "video_url" = Some VNone \/
  d !! "video_url" = Some (VStr EmptyString) ->
  handler (VDict d) [] =
    (Ok (Response (dict_literal [("error", VStr "Missing video url")]) 400), []).
Proof.
  intros Hd. apply falsy_video_url.
  destruct Hd as [-> | [-> | ->]]; reflexivity.
Qed.

(** The run up to the transcript check, when both analysis calls return. *)
Lemma analysis_returns (d : gmap string value) (video_file a dv : value) :
  d !! "video_url" = Some video_file ->
  truth video_file = Ok true ->
  analyze_audio video_file = Ok a ->
  analyze_video video_file = Ok dv ->
  handler (VDict d) [] =
    respond ndarray_bool check_trigger_words call_openai_therapy_model
      (prepare_data_for_json a) (prepare_data_for_json dv)
      (default (VDict ∅) (d !! "questionnaires"))
      (default (VList []) (d !! "past_turns"))
      [AudioCall video_file (Ok a); VideoCall video_file (Ok dv)].
Proof.
  intros Hd Hv Ha Hdv. unfold analyze_turn, bind, lift, call, ret.
  cbn [py_get]. rewrite Hd. simpl. rewrite Hv. simpl.
  by rewrite Ha, Hdv.
Qed.

(** A falsy transcript ends the request at line 69. *)
Lemma falsy_transcript (assembly : gmap string value) (dv q p : value) (log : list event) :
  truth (default VNone (assembly !! "transcript")) = Ok false ->
  respond ndarray_bool check_trigger_words call_openai_therapy_model
    (VDict assembly) dv q p log =
    (Ok (error_response "Missing transcript"), log).
Proof.
  intros Ht. unfold respond, bind, lift, ret. cbn [py_get]. by rewrite Ht.
Qed.

(** C4: when the audio analysis returns a dict without the key
    [transcript] (and the video analysis returns), the request gets status
    400 with body [{"error": "Missing transcript"}]; the calls made are the
    two analyses, not the therapy model. *)
Theorem missing_transcript_key
    (d ad : gmap string value) (video_file dv : value) :
  d !! "video_url" = Some video_file ->
  truth video_file = Ok true ->
  analyze_audio video_file = Ok (VDict ad) ->
  ad !! "transcript" = None ->
  analyze_video video_file = Ok dv ->
  handler (VDict d) [] =
    (Ok (Response (dict_literal [("error", VStr "Missing transcript")]) 400),
     [AudioCall video_file (Ok (VDict ad)); VideoCall video_file (Ok dv)]).
Proof.
  intros Hd Hv Ha Ht Hdv.
  rewrite (analysis_returns d video_file (VDict ad) dv) by done.
  cbn [prepare_data_for_json]. apply falsy_transcript.
  by rewrite lookup_fmap, Ht.
Qed.

(** C10: when the audio analysis returns a dict whose [transcript] is, once
    prepared, a falsy value such as the empty string or [None] (and the
    video analysis returns), the request gets status 400 with body
    [{"error": "Missing transcript"}] as well; the empty string and [None]
    are such values. *)
Theorem falsy_transcript_value
    (d ad : gmap string value) (video_file dv t : value) :
  d !! "video_url" = Some video_file ->
  truth video_file = Ok true ->
  analyze_audio video_file = Ok (VDict ad) ->
  ad !! "transcript" = Some t ->
  truth (prepare_data_for_json t) = Ok false ->
  analyze_video video_file = Ok dv ->
  handler (VDict d) [] =
    (Ok (Response (dict_literal [("error", VStr "Missing transcript")]) 400),
     [AudioCall video_file (Ok (VDict ad)); VideoCall video_file (Ok dv)])
  /\ truth (prepare_data_for_json (VStr EmptyString)) = Ok false
  /\ truth (prepare_data_for_json VNone) = Ok false.
Proof.
  intros Hd Hv Ha Ht Hf Hdv. split; [|done].
  rewrite (analysis_returns d video_file (VDict ad) dv) by done.
  cbn [prepare_data_for_json]. apply falsy_transcript.
  by rewrite lookup_fmap, Ht.
Qed.








(** The three places where a service can fail. *)
Lemma audio_raises (d : gmap string value) (video_file : value) (e : exn) :
  d !! "video_url" = Some video_file ->
  truth video_file = Ok true ->
  analyze_audio video_file = Raise e ->
  handler (VDict d) [] = (Raise e, [AudioCall video_file (Raise e)]).
Proof.
  intros Hd Hv Ha. unfold analyze_turn, bind, lift, call, ret.
  cbn [py_get]. rewrite Hd. simpl. rewrite Hv. simpl. by rewrite Ha.
Qed.

Lemma video_raises (d : gmap string value) (video_file a : value) (e : exn) :
  d !! "video_url" = Some video_file ->
  truth video_file = Ok true ->
  analyze_audio video_file = Ok a ->
  analyze_video video_file = Raise e ->
  handler (VDict d) [] =
    (Raise e, [AudioCall video_file (Ok a); VideoCall video_file (Raise e)]).
Proof.
  intros Hd Hv Ha Hdv. unfold analyze_turn, bind, lift, call, ret.
  cbn [py_get]. rewrite Hd. simpl. rewrite Hv. simpl. by rewrite Ha, Hdv.
Qed.

Lemma model_raises
    (d ad : gmap string value) (video_file dv x w : value) (e : exn) :
  d !! "video_url" = Some video_file ->
  truth video_file = Ok true ->
  analyze_audio video_file = Ok (VDict ad) ->
  analyze_video video_file = Ok dv ->
  ad !! "transcript" = Some x ->
  truth (prepare_data_for_json x) = Ok true ->
  check_trigger_words (prepare_data_for_json x) = Ok (false, w) ->
  call_openai_therapy_model
    (prepare_data_for_json (VDict ad)) (prepare_data_for_json dv)
    (default (VDict ∅) (d !! "questionnaires"))
    (default (VList []) (d !! "past_turns")) = Raise e ->
  handler (VDict d) [] =
    (Raise e,
     [AudioCall video_file (Ok (VDict ad));
      VideoCall video_file (Ok dv);
      TriggerCheck (prepare_data_for_json x) (Ok (false, w));
      ModelCall (prepare_data_for_json (VDict ad)) (prepare_data_for_json dv)
        (default (VDict ∅) (d !! "questionnaires"))
        (default (VList []) (d !! "past_turns")) (Raise e)]).
Proof.
  intros Hd Hv Ha Hdv Hx Ht Hc Hm.
  rewrite (analysis_returns d video_file (VDict ad) dv) by done.
  cbn [prepare_data_for_json] in *.
  unfold respond, bind, lift, call, ret. cbn [py_get].
  rewrite lookup_fmap, Hx. simpl. rewrite Ht. simpl. rewrite Hc. simpl.
  by rewrite Hm.
Qed.

(** C9: whenever a call to one of the three services raised during a
    request, the handler raises that very exception instead of returning
    a response; the failed call is the last thing it did, and no
    collaborator was called twice. *)
Theorem service_exception_propagates
    (data : value) (out : result response) (log : list event)
    (ev : event) (e : exn) :
  handler data [] = (out, log) ->
  ev ∈ log ->
  is_service ev = true ->
  raised_by ev = Some e ->
  out = Raise e /\ last log = Some ev /\ NoDup (callee_of <$> log).
Proof.
  unfold analyze_turn, respond, bind, lift, call, ret.
  intros Hrun Hev Hs He.
  repeat
    (match type of Hrun with
     | context [match ?c with _ => _ end] => destruct c eqn:?
     | context [if ?c then _ else _] => destruct c eqn:?
     end; simpl in Hrun);
    apply pair_equal_spec in Hrun as [Hout Hlog]; subst out log;
    repeat (apply elem_of_cons in Hev as [Hev | Hev]; [subst ev|]);
    try (by apply elem_of_nil in Hev);
    try discriminate Hs;
    simpl in He; try discriminate He;
    apply (inj Some) in He as ->;
    (split; [done|]); (split; [done|]);
    compute_done.
Qed.

End HandlerProperties.

(** The result of [respond] does not depend on the calls logged before. *)
Lemma respond_result_any_log nb check model (a dv q p : value) (log1 log2 : list event) :
  (respond nb check model a dv q p log1).1 = (respond nb check model a dv q p log2).1.
Proof.
  unfold respond, bind, lift, call, ret.
  repeat (match goal with
          | |- context [match ?c with _ => _ end] => destruct c eqn:?
          | |- context [if ?c then _ else _] => destruct c eqn:?
          end; simpl; try done).
Qed.

(** C8: with analysis clients that return a result for every media
    reference, the handler that calls the video analysis before the audio
    analysis gives the same result as the handler of the source, whatever
    the request, the results of the two clients and the other collaborators
    are. *)
Theorem swapped_analysis_same_response
    nb (audio video : value -> value) check model (data : value) :
  (analyze_turn_swapped nb (fun v => Ok (audio v)) (fun v => Ok (video v))
     check model data []).1 =
  (analyze_turn nb (fun v => Ok (audio v)) (fun v => Ok (video v))
     check model data []).1.
Proof.
  unfold analyze_turn_swapped, analyze_turn, bind, lift, call, ret.
  destruct (py_get data "questionnaires" _); [|done].
  destruct (py_get data "past_turns" _); [|done].
  destruct (py_get data "video_url" _) as [video_file|]; [|done].
  destruct (py_bool nb video_file) as [[]|]; [|done..].
  simpl. apply respond_result_any_log.
Qed.

(** ** The properties at work on sample runs *)

Lemma missing_video_url_witness :
  analyze_turn ndarray_bool_error (audio_says None) video_sees
    (check_trigger_words_spec trigger_phrases) model_replies
    (VDict empty_url_request) [] =
    (Ok (Response (dict_literal [("error", VStr "Missing video url")]) 400), []).
Proof.
  apply missing_video_url. right. right. reflexivity.
Defined.

Lemma missing_transcript_key_witness :
  analyze_turn ndarray_bool_error (audio_says None) video_sees
    (check_trigger_words_spec trigger_phrases) model_replies
    (VDict turn_request) [] =
    (Ok (Response (dict_literal [("error", VStr "Missing transcript")]) 400),
     [AudioCall (VStr "clip.mp4") (Ok (VDict (audio_result None)));
      VideoCall (VStr "clip.mp4") (Ok video_result)]).
Proof.
  apply missing_transcript_key; reflexivity.
Defined.

Lemma falsy_transcript_value_witness :
  analyze_turn ndarray_bool_error (audio_says (Some EmptyString)) video_sees
    (check_trigger_words_spec trigger_phrases) model_replies
    (VDict turn_request) [] =
    (Ok (Response (dict_literal [("error", VStr "Missing transcript")]) 400),
     [AudioCall (VStr "clip.mp4") (Ok (VDict (audio_result (Some EmptyString))));
      VideoCall (VStr "clip.mp4") (Ok video_result)]).
Proof.
  apply (falsy_transcript_value ndarray_bool_error
           (audio_says (Some EmptyString)) video_sees
           (check_trigger_words_spec trigger_phrases) model_replies
           turn_request (audio_result (Some EmptyString))
           (VStr "clip.mp4") video_result (VStr EmptyString));
    reflexivity.
Defined.




(** The video analysis fails after the audio analysis returned. *)
Lemma service_exception_propagates_witness :
  (analyze_turn ndarray_bool_error (audio_says (Some "I had a good day"))
     (fun _ => service_down) (check_trigger_words_spec trigger_phrases)
     model_replies (VDict turn_request) []).1 =
  Raise (Exn "ConnectionError" "upstream").
Proof.
  eapply proj1, (service_exception_propagates ndarray_bool_error
                   (audio_says (Some "I had a good day")) (fun _ => service_down)
                   (check_trigger_words_spec trigger_phrases) model_replies
                   (VDict turn_request) _ _
                   (VideoCall (VStr "clip.mp4") service_down)).
  - apply surjective_pairing.
  - vm_compute. constructor 2. constructor 1.
  - reflexivity.
  - reflexivity.
Defined.

(** ** Runs in which a collaborator fails *)


(** The audio result has no [transcript] and the video analysis fails: the
    handler raises instead of answering 400. *)
Lemma missing_transcript_video_fails :
  audio_result None !! "transcript" = None /\
  analyze_turn ndarray_bool_error (audio_says None) (fun _ => service_down)
    (check_trigger_words_spec trigger_phrases) model_replies
    (VDict turn_request) [] =
    (Raise (Exn "ConnectionError" "upstream"),
     [AudioCall (VStr "clip.mp4") (Ok (VDict (audio_result None)));
      VideoCall (VStr "clip.mp4") service_down]).
Proof. repeat split. Qed.

(** The same with an empty transcript. *)
Lemma empty_transcript_video_fails :
  audio_result (Some EmptyString) !! "transcript" = Some (VStr EmptyString) /\
  analyze_turn ndarray_bool_error (audio_says (Some EmptyString))
    (fun _ => service_down) (check_trigger_words_spec trigger_phrases)
    model_replies (VDict turn_request) [] =
    (Raise (Exn "ConnectionError" "upstream"),
     [AudioCall (VStr "clip.mp4") (Ok (VDict (audio_result (Some EmptyString))));
      VideoCall (VStr "clip.mp4") service_down]).
Proof. repeat split. Qed.



(** * Further properties of the code *)

(** ** [prepare_data_for_json] *)






(** ** The request handler, over all its runs *)

Section HandlerRuns.

Variable ndarray_bool : ndarray -> result bool.
Variable analyze_audio : value -> result value.
Variable analyze_video : value -> result value.
Variable check_trigger_words : value -> result (bool * value).
Variable call_openai_therapy_model :
  value -> value -> value -> value -> result value.

Local Abbreviation handler :=
  (analyze_turn ndarray_bool analyze_audio analyze_video
     check_trigger_words call_openai_therapy_model).
Local Abbreviation truth := (py_bool ndarray_bool).

(** Every way through the handler, one goal each. *)
Ltac all_runs Hrun :=
  unfold analyze_turn, respond, bind, lift, call, ret in Hrun;
  repeat
    (match type of Hrun with
     | context [match ?c with _ => _ end] => destruct c eqn:?
     | context [if ?c then _ else _] => destruct c eqn:?
     end; simpl in Hrun);
  apply pair_equal_spec in Hrun as [? ?]; subst;
  repeat match goal with
         | H : negb ?b = _ |- _ => destruct b; try discriminate H; clear H
         end.

(** X3: a request body that is not a JSON object (a list, a string, a
    number, [None]) makes the handler raise [AttributeError] at its first
    [data.get], before any collaborator is called. *)
Theorem non_object_request_raises (data : value) :
  (forall d, data <> VDict d) ->
  handler data [] = (Raise (Exn "AttributeError" "get"), []).
Proof.
  intros Hdata. destruct data; try reflexivity. by destruct (Hdata d).
Qed.

(** X4: the handler answers "Missing video url" exactly when the value of
    [video_url] (an empty dict when the key is missing) is falsy: besides
    [None] and the empty string also [False], zero, an empty list and an
    empty dict. *)
Theorem missing_video_url_iff_falsy (d : gmap string value) :
  ((handler (VDict d) []).1 = Ok (error_response "Missing video url")
   <-> truth (default (VDict ∅) (d !! "video_url")) = Ok false) /\
  truth (VBool false) = Ok false /\ truth (VInt 0) = Ok false /\
  truth (VList []) = Ok false /\ truth (VDict ∅) = Ok false.
Proof.
  split; [|done]. split.
  - destruct (truth (default (VDict ∅) (d !! "video_url"))) as [[]|e] eqn:Hv;
      [|done|].
    + destruct (handler (VDict d) []) as [out log] eqn:Hrun. simpl. intros ->.
      unfold analyze_turn, bind, lift in Hrun. cbn [py_get] in Hrun.
      rewrite Hv in Hrun. simpl in Hrun.
      all_runs Hrun; try done;
        match goal with
        | H : Ok _ = Ok (error_response _) |- _ =>
            apply (f_equal (fun o => match o with
                                     | Ok r => (status r, field r "error")
                                     | Raise _ => (0%Z, None)
                                     end)) in H;
            vm_compute in H; discriminate H
        end.
    + unfold analyze_turn, bind, lift. cbn [py_get]. by rewrite Hv.
  - intros Hv. by rewrite falsy_video_url.
Qed.

(** X5: when the audio analysis returns something that is, once prepared,
    not a dict (a list, [None], a string), the handler does not answer
    "Missing transcript": after the video analysis has been called too, it
    raises [AttributeError] at [assembly_data.get]. *)
Theorem audio_result_not_dict_raises
    (d : gmap string value) (video_file a dv : value) :
  d !! "video_url" = Some video_file ->
  truth video_file = Ok true ->
  analyze_audio video_file = Ok a ->
  (forall m, prepare_data_for_json a <> VDict m) ->
  analyze_video video_file = Ok dv ->
  handler (VDict d) [] =
    (Raise (Exn "AttributeError" "get"),
     [AudioCall video_file (Ok a); VideoCall video_file (Ok dv)]).
Proof.
  intros Hd Hv Ha Hna Hdv.
  rewrite (analysis_returns _ _ _ _ _ d video_file a dv) by done.
  unfold respond, bind, lift.
  destruct (prepare_data_for_json a) as [| | | | | |m| | |]; try reflexivity.
  by destruct (Hna m).
Qed.

(** X6: when the therapy model returns something that is not a dict, the
    handler raises [AttributeError] at [model_output.get] and gives no
    response; the model's result is not passed through
    [prepare_data_for_json]. *)
Theorem model_output_not_dict_raises
    (d ad : gmap string value) (video_file dv x w mo : value) :
  d !! "video_url" = Some video_file ->
  truth video_file = Ok true ->
  analyze_audio video_file = Ok (VDict ad) ->
  analyze_video video_file = Ok dv ->
  ad !! "transcript" = Some x ->
  truth (prepare_data_for_json x) = Ok true ->
  check_trigger_words (prepare_data_for_json x) = Ok (false, w) ->
  call_openai_therapy_model
    (prepare_data_for_json (VDict ad)) (prepare_data_for_json dv)
    (default (VDict ∅) (d !! "questionnaires"))
    (default (VList []) (d !! "past_turns")) = Ok mo ->
  (forall m, mo <> VDict m) ->
  (handler (VDict d) []).1 = Raise (Exn "AttributeError" "get").
Proof.
  intros Hd Hv Ha Hdv Hx Ht Hc Hm Hmo.
  rewrite (analysis_returns _ _ _ _ _ d video_file (VDict ad) dv) by done.
  cbn [prepare_data_for_json] in *.
  unfold respond, bind, lift, call, ret. cbn [py_get].
  rewrite lookup_fmap, Hx. simpl. rewrite Ht. simpl. rewrite Hc. simpl.
  rewrite Hm. simpl.
  destruct mo as [| | | | | |m| | |]; try reflexivity. by destruct (Hmo m).
Qed.

(** X7: in every run the collaborators are called in the order audio
    analysis, video analysis, trigger check, therapy model, each at most
    once and none before its predecessors: the sequence of callees is a
    prefix of that list. *)
Theorem calls_in_order (data : value) :
  (callee_of <$> (handler data []).2) `prefix_of` [Audio; Video; Trigger; Model].
Proof.
  destruct (handler data []) as [out log] eqn:Hrun. simpl.
  all_runs Hrun; simpl;
    first [ by exists [Audio; Video; Trigger; Model]
          | by exists [Video; Trigger; Model]
          | by exists [Trigger; Model]
          | by exists [Model]
          | by exists [] ].
Qed.

(** X8: the response tells which collaborators were called.  A response is
    "Missing video url" after no call, "Missing transcript" after the two
    analyses, the emergency shape after the two analyses and the trigger
    check, or the normal shape after all four calls; the handler gives no
    other response. *)
Theorem response_tells_calls (data : value) (r : response) (log : list event) :
  handler data [] = (Ok r, log) ->
  (r = error_response "Missing video url" /\ log = []) \/
  (r = error_response "Missing transcript" /\
   callee_of <$> log = [Audio; Video]) \/
  (emergency_shape r = true /\ normal_shape r = false /\
   callee_of <$> log = [Audio; Video; Trigger]) \/
  (normal_shape r = true /\ emergency_shape r = false /\
   callee_of <$> log = [Audio; Video; Trigger; Model]).
Proof.
  intros Hrun. all_runs Hrun; try discriminate;
    match goal with H : Ok _ = Ok r |- _ => injection H as <- end;
    first [ by left
          | by right; left
          | by right; right; left
          | by right; right; right ].
Qed.

(** X9: the therapy model is called only at the end of a run in which both
    analyses returned and the trigger check found nothing, and what it is
    given are the prepared results of the two analyses and the request's
    [questionnaires] and [past_turns] (an empty dict and an empty list when
    missing). *)
Theorem model_call_provenance
    (data a dv q p : value) (res : result value)
    (out : result response) (log : list event) :
  handler data [] = (out, log) ->
  ModelCall a dv q p res ∈ log ->
  exists (video_file ra rv t w : value),
    log = [AudioCall video_file (Ok ra); VideoCall video_file (Ok rv);
           TriggerCheck t (Ok (false, w)); ModelCall a dv q p res] /\
    a = prepare_data_for_json ra /\
    dv = prepare_data_for_json rv /\
    py_get a "transcript" VNone = Ok t /\
    py_get data "questionnaires" (VDict ∅) = Ok q /\
    py_get data "past_turns" (VList []) = Ok p.
Proof.
  intros Hrun Hev. all_runs Hrun;
    repeat (apply elem_of_cons in Hev as [Hev | Hev]; [try discriminate Hev|]);
    try (by apply elem_of_nil in Hev);
    injection Hev as -> -> -> -> ->; by eexists _, _, _, _, _.
Qed.

(** X10: both analyses are given the request's [video_url], as it came and
    only when it is truthy. *)
Theorem analyses_get_video_url
    (data video_file : value) (res : result value)
    (out : result response) (log : list event) :
  handler data [] = (out, log) ->
  AudioCall video_file res ∈ log \/ VideoCall video_file res ∈ log ->
  py_get data "video_url" (VDict ∅) = Ok video_file /\
  truth video_file = Ok true.
Proof.
  intros Hrun Hev. all_runs Hrun; destruct Hev as [Hev | Hev];
    repeat (apply elem_of_cons in Hev as [Hev | Hev]; [try discriminate Hev|]);
    try (by apply elem_of_nil in Hev);
    by injection Hev as -> ->.
Qed.

(** X11: the handler reads three keys of the request and nothing else: two
    requests that agree on [video_url], [questionnaires] and [past_turns]
    make the same calls and get the same result. *)
Theorem request_fields_read (d1 d2 : gmap string value) :
  d1 !! "video_url" = d2 !! "video_url" ->
  d1 !! "questionnaires" = d2 !! "questionnaires" ->
  d1 !! "past_turns" = d2 !! "past_turns" ->
  handler (VDict d1) [] = handler (VDict d2) [].
Proof.
  intros Hv Hq Hp. unfold analyze_turn, bind, lift. cbn [py_get].
  by rewrite Hv, Hq, Hp.
Qed.

(** X12: [questionnaires] and [past_turns] matter to the therapy model
    only: of two requests with the same [video_url], if the run of the first
    does not reach the model, the second gets the same result after the same
    calls. *)
Theorem questionnaires_only_for_model (d1 d2 : gmap string value) :
  d1 !! "video_url" = d2 !! "video_url" ->
  Forall (fun ev => is_model_call ev = false) (handler (VDict d1) []).2 ->
  handler (VDict d2) [] = handler (VDict d1) [].
Proof.
  intros Hv. unfold analyze_turn, respond, bind, lift, call, ret. cbn [py_get].
  rewrite Hv.
  repeat (match goal with
          | |- context [match ?c with _ => _ end] => destruct c eqn:?
          | |- context [if ?c then _ else _] => destruct c eqn:?
          end; simpl; try done);
    intros Hlog; exfalso;
    repeat (apply Forall_cons in Hlog as [? Hlog]); discriminate.
Qed.



(** X15: the trigger check is run only on a truthy transcript, the value of
    [transcript] in the prepared result of the audio analysis, and only
    after both analyses returned. *)
Theorem trigger_check_provenance
    (data t : value) (res : result (bool * value))
    (out : result response) (log : list event) :
  handler data [] = (out, log) ->
  TriggerCheck t res ∈ log ->
  exists (video_file ra rv : value) (rest : list event),
    log = AudioCall video_file (Ok ra) :: VideoCall video_file (Ok rv)
            :: TriggerCheck t res :: rest /\
    py_get (prepare_data_for_json ra) "transcript" VNone = Ok t /\
    truth t = Ok true.
Proof.
  intros Hrun Hev. all_runs Hrun;
    repeat (apply elem_of_cons in Hev as [Hev | Hev]; [try discriminate Hev|]);
    try (by apply elem_of_nil in Hev);
    injection Hev as -> ->; by eexists _, _, _, _.
Qed.

(** X16: the keys of every response.  A 400 response has the one key
    [error]; an emergency response has the eight keys of lines 75-84, with
    [emergency] true and [diagnostic_match] false; a normal response has the
    seven keys of lines 92-100, without [triggered_word], with [emergency]
    false and a boolean [diagnostic_match]. *)
Theorem response_keys (data : value) (r : response) (log : list event) :
  handler data [] = (Ok r, log) ->
  exists m : gmap string value,
    body r = VDict m /\
    ((status r = 400%Z /\ dom m = list_to_set ["error"]) \/
     (status r = 200%Z /\
      dom m = list_to_set
                ["assemblyAI_output"; "deepface_output"; "bot_reply";
                 "diagnostic_match"; "conversation_type"; "diagnostic_mapping";
                 "emergency"; "triggered_word"] /\
      m !! "emergency" = Some (VBool true) /\
      m !! "diagnostic_match" = Some (VBool false)) \/
     (status r = 200%Z /\
      dom m = list_to_set
                ["assemblyAI_output"; "deepface_output"; "bot_reply";
                 "diagnostic_match"; "conversation_type"; "diagnostic_mapping";
                 "emergency"] /\
      m !! "emergency" = Some (VBool false) /\
      exists b, m !! "diagnostic_match" = Some (VBool b))).
Proof.
  intros Hrun. all_runs Hrun; try discriminate;
    match goal with H : Ok _ = Ok r |- _ => injection H as <- end;
    (eexists; split; [reflexivity|]);
    first [ left; split; [reflexivity|]; compute_done
          | right; left; split; [reflexivity|];
            split; [compute_done|]; split; reflexivity
          | right; right; split; [reflexivity|];
            split; [compute_done|]; split; [reflexivity|]; eexists; reflexivity ].
Qed.

End HandlerRuns.

(** ** These properties on sample runs *)

(** A JSON array as the request body. *)
Lemma non_object_request_raises_witness :
  analyze_turn ndarray_bool_error (audio_says None) video_sees
    (check_trigger_words_spec trigger_phrases) model_replies (VList []) [] =
    (Raise (Exn "AttributeError" "get"), []).
Proof.
  apply non_object_request_raises. intros d. discriminate.
Defined.

(** The audio analysis returns [None]. *)
Lemma audio_result_not_dict_raises_witness :
  analyze_turn ndarray_bool_error (fun _ => Ok VNone) video_sees
    (check_trigger_words_spec trigger_phrases) model_replies
    (VDict turn_request) [] =
    (Raise (Exn "AttributeError" "get"),
     [AudioCall (VStr "clip.mp4") (Ok VNone);
      VideoCall (VStr "clip.mp4") (Ok video_result)]).
Proof.
  apply audio_result_not_dict_raises; try reflexivity. intros m. discriminate.
Defined.

(** The therapy model returns [None]. *)
Lemma model_output_not_dict_raises_witness :
  (analyze_turn ndarray_bool_error (audio_says (Some "I had a good day"))
     video_sees (check_trigger_words_spec trigger_phrases)
     (fun _ _ _ _ => Ok VNone) (VDict turn_request) []).1 =
  Raise (Exn "AttributeError" "get").
Proof.
  apply (model_output_not_dict_raises ndarray_bool_error
           (audio_says (Some "I had a good day")) video_sees
           (check_trigger_words_spec trigger_phrases) (fun _ _ _ _ => Ok VNone)
           turn_request (audio_result (Some "I had a good day"))
           (VStr "clip.mp4") video_result (VStr "I had a good day")
           (VStr EmptyString) VNone);
    try reflexivity.
  intros m. discriminate.
Defined.

(** The run on a transcript with a distress phrase. *)
Lemma response_tells_calls_witness :
  let r := Response
             (emergency_response
                (prepare_data_for_json (VDict (audio_result (Some "I want to end it all"))))
                (prepare_data_for_json video_result) (VStr "end it all")) 200 in
  let log := [AudioCall (VStr "clip.mp4")
                (Ok (VDict (audio_result (Some "I want to end it all"))));
              VideoCall (VStr "clip.mp4") (Ok video_result);
              TriggerCheck (VStr "I want to end it all")
                (Ok (true, VStr "end it all"))] in
  emergency_shape r = true /\ callee_of <$> log = [Audio; Video; Trigger].
Proof.
  intros r log.
  destruct (response_tells_calls ndarray_bool_error
              (audio_says (Some "I want to end it all")) video_sees
              (check_trigger_words_spec trigger_phrases) model_replies
              (VDict turn_request) r log eq_refl)
    as [[_ Hl] | [[_ Hl] | [(Hs & _ & Hl) | (_ & _ & Hl)]]];
    try discriminate Hl.
  split; [exact Hs | exact Hl].
Defined.

(** The run on a calm transcript, which reaches the therapy model. *)
Lemma model_call_provenance_witness :
  exists (video_file ra rv t w : value),
    (analyze_turn ndarray_bool_error (audio_says (Some "I had a good day"))
       video_sees (check_trigger_words_spec trigger_phrases) model_replies
       (VDict turn_request) []).2 =
      [AudioCall video_file (Ok ra); VideoCall video_file (Ok rv);
       TriggerCheck t (Ok (false, w));
       ModelCall
         (prepare_data_for_json (VDict (audio_result (Some "I had a good day"))))
         (prepare_data_for_json video_result) (VDict ∅) (VList [])
         (Ok (VDict model_output))].
Proof.
  destruct (model_call_provenance ndarray_bool_error
              (audio_says (Some "I had a good day")) video_sees
              (check_trigger_words_spec trigger_phrases) model_replies
              (VDict turn_request)
              (prepare_data_for_json (VDict (audio_result (Some "I had a good day"))))
              (prepare_data_for_json video_result) (VDict ∅) (VList [])
              (Ok (VDict model_output)) _ _ (surjective_pairing _))
    as (video_file & ra & rv & t & w & Hlog & _).
  - do 3 constructor 2. constructor 1.
  - exists video_file, ra, rv, t, w. exact Hlog.
Defined.

Lemma analyses_get_video_url_witness :
  py_get (VDict turn_request) "video_url" (VDict ∅) = Ok (VStr "clip.mp4") /\
  py_bool ndarray_bool_error (VStr "clip.mp4") = Ok true.
Proof.
  apply (analyses_get_video_url ndarray_bool_error
           (audio_says (Some "I had a good day")) video_sees
           (check_trigger_words_spec trigger_phrases) model_replies
           (VDict turn_request) (VStr "clip.mp4") (Ok video_result) _ _
           (surjective_pairing _)).
  right. constructor 2. constructor 1.
Defined.

(** A request with one more key. *)
Lemma request_fields_read_witness :
  analyze_turn ndarray_bool_error (audio_says (Some "I had a good day"))
    video_sees (check_trigger_words_spec trigger_phrases) model_replies
    (VDict turn_request) [] =
  analyze_turn ndarray_bool_error (audio_says (Some "I had a good day"))
    video_sees (check_trigger_words_spec trigger_phrases) model_replies
    (VDict (<["session" := VStr "s1"]> turn_request)) [].
Proof.
  apply request_fields_read; reflexivity.
Defined.

(** Two requests with different questionnaires, on a transcript with a
    distress phrase. *)
Lemma questionnaires_only_for_model_witness :
  analyze_turn ndarray_bool_error (audio_says (Some "I want to end it all"))
    video_sees (check_trigger_words_spec trigger_phrases) model_replies
    (VDict (<["questionnaires" := dict_literal [("phq9", VInt 3)]]> turn_request)) [] =
  analyze_turn ndarray_bool_error (audio_says (Some "I want to end it all"))
    video_sees (check_trigger_words_spec trigger_phrases) model_replies
    (VDict turn_request) [].
Proof.
  apply questionnaires_only_for_model; [reflexivity|].
  vm_compute. repeat constructor.
Defined.



Lemma trigger_check_provenance_witness :
  py_bool ndarray_bool_error (VStr "I want to end it all") = Ok true.
Proof.
  destruct (trigger_check_provenance ndarray_bool_error
              (audio_says (Some "I want to end it all")) video_sees
              (check_trigger_words_spec trigger_phrases) model_replies
              (VDict turn_request) (VStr "I want to end it all")
              (Ok (true, VStr "end it all")) _ _ (surjective_pairing _))
    as (video_file & ra & rv & rest & _ & _ & Ht).
  - do 2 constructor 2. constructor 1.
  - exact Ht.
Defined.

(** The keys of the answer to a request without [video_url]. *)
Lemma response_keys_witness :
  exists m : gmap string value,
    body (error_response "Missing video url") = VDict m /\
    dom m = list_to_set ["error"].
Proof.
  destruct (response_keys ndarray_bool_error (audio_says None) video_sees
              (check_trigger_words_spec trigger_phrases) model_replies
              (VDict empty_url_request)
              (error_response "Missing video url") [] eq_refl)
    as (m & Hm & [[_ Hd] | [(Hs & _) | (Hs & _)]]); try discriminate Hs.
  exists m. split; [exact Hm | exact Hd].
Defined.
